(** * electionRo25: the aggregation, estimation, percentage and clustering
    pipeline of [backend/update_data.py] and [backend/app.py].

    Numbers.  pandas and numpy compute on IEEE doubles.  This development
    keeps the special values (infinities and NaN, which decide several
    branches of the code) and replaces the finite doubles by exact
    rationals: a finite result is the exact value of the expression, with
    no binary rounding error and no overflow.

    Randomness.  [random.uniform] draws are explicit inputs.

    Libraries.  The scikit-learn calls of the clustering endpoint and the
    [nunique] call of the aggregator are parameters of the functions that
    use them; everything else is written out. *)

From Stdlib Require Import ZArith QArith Qround Qabs Qminmax Lia Lqa String Ascii List.
From stdpp Require Import gmap strings.

Open Scope Z_scope.

(** ** Exceptions and logging *)

Inductive exn :=
| TypeError
| ValueError
| OverflowError
| KeyError
| EmptyDataError
| LibraryError (msg : string).

Inductive result (A : Type) :=
| Ok (a : A)
| Raise (e : exn).
Arguments Ok {A} a.
Arguments Raise {A} e.

#[global] Instance result_ret : MRet result := fun A a => Ok a.

#[global] Instance result_bind : MBind result := fun A B k m =>
  match m with
  | Ok a => k a
  | Raise e => Raise e
  end.

Fixpoint mapM_result {A B : Type} (f : A -> result B) (l : list A) : result (list B) :=
  match l with
  | [] => Ok []
  | a :: t => b ← f a; bs ← mapM_result f t; Ok (b :: bs)
  end.

(** ** Numbers *)

(** A float64 value: a finite number, an infinity, or NaN (which is also
    how pandas stores a missing field of a numeric column). *)
Inductive flt :=
| Fin (q : Q)
| PInf
| NInf
| NaN.

Definition notna (x : flt) : bool :=
  match x with NaN => false | _ => true end.

(** Sign of a value as numpy's arithmetic sees it (zero is [+0.0]). *)
Definition Qsgn (q : Q) : Z := Z.sgn (Qnum q).

Definition signed_inf (s : Z) : flt :=
  match s with
  | Z0 => NaN
  | Zpos _ => PInf
  | Zneg _ => NInf
  end.

Definition fadd (x y : flt) : flt :=
  match x, y with
  | NaN, _ | _, NaN => NaN
  | Fin a, Fin b => Fin (a + b)
  | PInf, NInf | NInf, PInf => NaN
  | PInf, _ | _, PInf => PInf
  | NInf, _ | _, NInf => NInf
  end.

Definition fsgn (x : flt) : Z :=
  match x with
  | Fin q => Qsgn q
  | PInf => 1
  | NInf => -1
  | NaN => 0
  end.

Definition fmul (x y : flt) : flt :=
  match x, y with
  | NaN, _ | _, NaN => NaN
  | Fin a, Fin b => Fin (a * b)
  | _, _ => signed_inf (fsgn x * fsgn y)
  end.

(** numpy division: a zero divisor gives an infinity or NaN, never an
    exception. *)
Definition fdiv (x y : flt) : flt :=
  match x, y with
  | NaN, _ | _, NaN => NaN
  | Fin a, Fin b =>
      if Qeq_bool b 0 then signed_inf (Qsgn a) else Fin (a / b)
  | Fin _, _ => Fin 0
  | _, Fin b => signed_inf (fsgn x * (if Qeq_bool b 0 then 1 else Qsgn b))
  | _, _ => NaN
  end.

(** [x > 0]; every comparison with NaN is false. *)
Definition fgt0 (x : flt) : bool :=
  match x with
  | Fin q => match Qcompare q 0 with Gt => true | _ => false end
  | PInf => true
  | _ => false
  end.

Definition Qltb (a b : Q) : bool :=
  match Qcompare a b with Lt => true | _ => false end.

Definition fltb (x y : flt) : bool :=
  match x, y with
  | NaN, _ | _, NaN => false
  | Fin a, Fin b => Qltb a b
  | NInf, NInf => false
  | NInf, _ => true
  | _, PInf => match x with PInf => false | _ => true end
  | _, _ => false
  end.

(** Python's [min(a, b)]: the first argument unless the second is smaller. *)
Definition py_min (a b : flt) : flt := if fltb b a then b else a.

(** Round half to even, the rule of Python's [round] and numpy's [rint]. *)
Definition round_half_even (q : Q) : Z :=
  let f := Qfloor q in
  match Qcompare (q - inject_Z f) (1 # 2) with
  | Lt => f
  | Gt => f + 1
  | Eq => if Z.even f then f else f + 1
  end.

Fixpoint pow10 (n : nat) : positive :=
  match n with
  | O => 1%positive
  | S k => (10 * pow10 k)%positive
  end.

(** [round(q, n)] on a finite value. *)
Definition Qround_nd (n : nat) (q : Q) : Q :=
  round_half_even (q * inject_Z (Zpos (pow10 n))) # pow10 n.

(** [round(x, n)] and [Series.round()]: the special values pass through. *)
Definition fround_nd (n : nat) (x : flt) : flt :=
  match x with
  | Fin q => Fin (Qround_nd n q)
  | _ => x
  end.

Definition fround (x : flt) : flt :=
  match x with
  | Fin q => Fin (inject_Z (round_half_even q))
  | _ => x
  end.

Definition fillna (d : Q) (x : flt) : flt :=
  match x with NaN => Fin d | _ => x end.

(** Truncation toward zero, the rule of [int(float)] and [astype(int)]. *)
Definition Qtrunc (q : Q) : Z := Z.quot (Qnum q) (Zpos (Qden q)).

(** Python's [int(x)] on a float. *)
Definition py_int (x : flt) : result Z :=
  match x with
  | Fin q => Ok (Qtrunc q)
  | NaN => Raise ValueError
  | _ => Raise OverflowError
  end.

(** [Series.astype(int)]: pandas refuses every non-finite value. *)
Definition astype_int (x : flt) : result Z :=
  match x with
  | Fin q => Ok (Qtrunc q)
  | _ => Raise ValueError
  end.

Definition Qclip (lo hi q : Q) : Q := Qmin (Qmax q lo) hi.

(** [Series.clip(lo, hi)] and [np.clip]: NaN stays NaN. *)
Definition fclip (lo hi : Q) (x : flt) : flt :=
  match x with
  | Fin q => Fin (Qclip lo hi q)
  | PInf => Fin hi
  | NInf => Fin lo
  | NaN => NaN
  end.

(** [np.maximum(0, x)]. *)
Definition fmax0 (x : flt) : flt :=
  match x with
  | Fin q => Fin (Qmax 0 q)
  | PInf => PInf
  | NInf => Fin 0
  | NaN => NaN
  end.

(** [.replace([np.inf, -np.inf], np.nan)]. *)
Definition replace_inf (x : flt) : flt :=
  match x with PInf | NInf => NaN | _ => x end.

(** [Series.sum()] of a numeric column: NaN entries are skipped, the sum of
    nothing is 0. *)
Definition series_sum (xs : list flt) : flt :=
  fold_left fadd (List.filter notna xs) (Fin 0).

(** ** Strings *)

Definition upper_ascii (c : ascii) : ascii :=
  let n := nat_of_ascii c in
  if ((97 <=? n) && (n <=? 122))%nat then ascii_of_nat (n - 32) else c.

(** [str.upper()], on the ASCII letters. *)
Fixpoint upper (s : string) : string :=
  match s with
  | EmptyString => EmptyString
  | String c t => String (upper_ascii c) (upper t)
  end.

(** The ASCII characters that [str.strip()] removes. *)
Definition is_space (c : ascii) : bool :=
  let n := nat_of_ascii c in
  (((9 <=? n) && (n <=? 13)) || ((28 <=? n) && (n <=? 32)))%nat.

Fixpoint lstrip (s : string) : string :=
  match s with
  | EmptyString => EmptyString
  | String c t => if is_space c then lstrip t else s
  end.

Fixpoint rstrip (s : string) : string :=
  match s with
  | EmptyString => EmptyString
  | String c t =>
      match rstrip t with
      | EmptyString => if is_space c then EmptyString else String c EmptyString
      | r => String c r
      end
  end.

Definition strip (s : string) : string := rstrip (lstrip s).

(** ** update_data.py: the name normalizer *)

Definition COUNTIES : list string :=
  [ "Alba"; "Arad"; "Arges"; "Bacau"; "Bihor"; "Bistrita-Nasaud"; "Botosani";
    "Brasov"; "Braila"; "Buzau"; "Caras-Severin"; "Calarasi"; "Cluj"; "Constanta";
    "Covasna"; "Dambovita"; "Dolj"; "Galati"; "Giurgiu"; "Gorj"; "Harghita";
    "Hunedoara"; "Ialomita"; "Iasi"; "Ilfov"; "Maramures"; "Mehedinti"; "Mures";
    "Neamt"; "Olt"; "Prahova"; "Satu Mare"; "Salaj"; "Sibiu"; "Suceava"; "Teleorman";
    "Timis"; "Tulcea"; "Vaslui"; "Valcea"; "Vrancea"; "Bucharest" ]%string.

Definition COUNTY_NAME_MAP : gmap string string :=
  <["SATU-MARE" := "Satu Mare"]>
  (<["BISTRITA NASAUD" := "Bistrita-Nasaud"]>
  (<["CARAS SEVERIN" := "Caras-Severin"]>
  (<["BUCURESTI" := "Bucharest"]>
  (fold_left (fun m name => <[upper name := name]> m) COUNTIES ∅)))).

(** [name] is [None] when [pd.isna(name)], and otherwise carries
    [str(name)]. *)
Definition get_full_county_name (name : option string) : string :=
  match name with
  | None => "Unknown"
  | Some s => default (strip s) (COUNTY_NAME_MAP !! strip (upper s))
  end.

(** ** update_data.py: the aggregator *)

(** A cell of a gender/age column.  The code reads these columns only
    through [pd.to_numeric(..., errors='coerce')], which sees a number
    (NaN when the field is empty) or a text that is not a number. *)
Inductive cell :=
| CNum (x : flt)
| CText (s : string).

Definition to_numeric (c : cell) : flt :=
  match c with
  | CNum x => x
  | CText _ => NaN
  end.

Definition dropna (xs : list flt) : list flt := List.filter notna xs.

(** One polling station of the presence file, with the columns that the
    two programs read.  The count columns that the code sums directly
    ([registered] is the permanent-list column, [LT] and [LP] the two
    votes-cast columns) are numeric columns; the name columns are [None]
    where the field is missing; [age_cells] holds the ten gender/age
    columns under their names. *)
Record row := mk_row {
  Judet : option string;
  Localitate : option string;
  Nume_sectie : option string;
  Nr_sectie : option Z;
  Mediu : option string;
  registered : flt;
  LT : flt;
  LP : flt;
  age_cells : gmap string cell
}.

Record DataFrame := mk_df {
  columns : list string;
  rows : list row
}.

Definition judet_col : string := "Judet".
Definition total_voters_col : string := "Înscriși pe liste permanente".
Definition votes_cast_col : string := "LT".
Definition male_age_cols_src : list string :=
  ["Barbati 18-24"; "Barbati 25-34"; "Barbati 35-44"; "Barbati 45-64"; "Barbati 65+"]%string.
Definition female_age_cols_src : list string :=
  ["Femei 18-24"; "Femei 25-34"; "Femei 35-44"; "Femei 45-64"; "Femei 65+"]%string.
Definition station_type_col : string := "Mediu".
Definition station_id_col : string := "Nr sectie de votare".

Definition required_cols_for_processing : list string :=
  [judet_col; total_voters_col; votes_cast_col] ++ male_age_cols_src ++ female_age_cols_src.

Definition has_col (cols : list string) (c : string) : bool :=
  existsb (String.eqb c) cols.

(** [county_df[col]] for a gender/age column. *)
Definition age_col (col : string) (county_df : list row) : list cell :=
  map (fun r => default (CNum NaN) (age_cells r !! col)) county_df.

(** The helper nested in the loop of [process_presence_data]. *)
Definition safe_sum_multiple (cols : list string) (county_df : list row)
    (cols_to_sum : list string) : result (option Z) :=
  let total :=
    fold_left
      (fun total col =>
         if has_col cols col
         then fadd total (series_sum (dropna (map to_numeric (age_col col county_df))))
         else total)
      cols_to_sum (Fin 0) in
  if notna total then z ← py_int total; Ok (Some z) else Ok None.

(** [groupby]: rows whose key is missing are left out, the groups come in
    increasing key order, rows keep their order inside a group. *)
Fixpoint insert_key {K : Type} (le eq : K -> K -> bool) (k : K) (l : list K) : list K :=
  match l with
  | [] => [k]
  | h :: t =>
      if eq k h then l
      else if le k h then k :: l
      else h :: insert_key le eq k t
  end.

Definition sorted_keys {K : Type} (le eq : K -> K -> bool) (ks : list K) : list K :=
  fold_right (insert_key le eq) [] ks.

Definition has_key {K R : Type} (eq : K -> K -> bool) (key : R -> option K) (k : K) (r : R) : bool :=
  match key r with
  | Some k' => eq k' k
  | None => false
  end.

Definition groupby {K R : Type} (le eq : K -> K -> bool) (key : R -> option K)
    (rs : list R) : list (K * list R) :=
  map (fun k => (k, List.filter (has_key eq key k) rs))
      (sorted_keys le eq (omap key rs)).

Record county_entry := mk_entry {
  county : string;
  total_voters : Z;
  votes_cast : Z;
  attendance_percentage : flt;
  male_voters : option Z;
  female_voters : option Z;
  age_18_24 : option Z;
  age_25_34 : option Z;
  age_35_44 : option Z;
  age_45_64 : option Z;
  age_65_plus : option Z;
  urban_stations : option Z;
  rural_stations : option Z;
  timestamp : string
}.

(** What the job prints, as far as the properties below need it. *)
Inductive event :=
| SourceNotFound
| MissingColumns (cols : list string)
| SkippedGroup (original_name : option string)
| StationWarning (county_full_name : string) (e : exn)
| NoValidCounty
| SavedAttendance
| FallingBack (e : exn)
| ReducedClusters (n_clusters : Z).

Definition astype_str (v : option string) : string :=
  match v with
  | None => "nan"
  | Some s => s
  end.

(** [county_df.loc[station_types == marker, station_id_col]], where
    [station_types] is the upper-cased [Mediu] column ([astype(str)] has
    already turned a missing value into the text ["nan"], so the
    [fillna('UNKNOWN')] that follows changes nothing). *)
Definition stations_of_type (marker : string) (county_df : list row) : list (option Z) :=
  map Nr_sectie
      (List.filter (fun r => String.eqb (upper (astype_str (Mediu r))) marker) county_df).

(** [Series.nunique()] as pandas computes it: the number of distinct
    values, missing ones left out. *)
Definition pandas_nunique (ids : list (option Z)) : result Z :=
  Ok (Z.of_nat (length (remove_dups (omap id ids)))).

(** The [try]/[except] around the station counts: an exception of the
    library call is reported and leaves the count (and the one after it)
    at [None]. *)
Definition station_counts (nunique : list (option Z) -> result Z)
    (cols : list string) (county_full_name : string) (county_df : list row)
    : option Z * option Z * list event :=
  if has_col cols station_type_col && has_col cols station_id_col then
    match nunique (stations_of_type "U" county_df) with
    | Raise e => (None, None, [StationWarning county_full_name e])
    | Ok u =>
        match nunique (stations_of_type "R" county_df) with
        | Raise e => (Some u, None, [StationWarning county_full_name e])
        | Ok r => (Some u, Some r, [])
        end
    end
  else (None, None, []).

(** The sums and conversions of one group, in the order of the loop body;
    any exception here leaves the loop. *)
Definition aggregate_sums (cols : list string) (current_time : string)
    (county_full_name : string) (county_df : list row) : result county_entry :=
  let total_voters := series_sum (map registered county_df) in
  let votes_cast := series_sum (map LT county_df) in
  let attendance_percentage :=
    if fgt0 total_voters then fmul (fdiv votes_cast total_voters) (Fin 100) else Fin 0 in
  male_voters ← safe_sum_multiple cols county_df male_age_cols_src;
  female_voters ← safe_sum_multiple cols county_df female_age_cols_src;
  tv ← py_int total_voters;
  vc ← py_int votes_cast;
  a1 ← safe_sum_multiple cols county_df ["Barbati 18-24"; "Femei 18-24"]%string;
  a2 ← safe_sum_multiple cols county_df ["Barbati 25-34"; "Femei 25-34"]%string;
  a3 ← safe_sum_multiple cols county_df ["Barbati 35-44"; "Femei 35-44"]%string;
  a4 ← safe_sum_multiple cols county_df ["Barbati 45-64"; "Femei 45-64"]%string;
  a5 ← safe_sum_multiple cols county_df ["Barbati 65+"; "Femei 65+"]%string;
  Ok {| county := county_full_name;
        total_voters := tv;
        votes_cast := vc;
        attendance_percentage := fround_nd 2 attendance_percentage;
        male_voters := male_voters;
        female_voters := female_voters;
        age_18_24 := a1; age_25_34 := a2; age_35_44 := a3;
        age_45_64 := a4; age_65_plus := a5;
        urban_stations := None;
        rural_stations := None;
        timestamp := current_time |}.

Definition with_stations (e : county_entry) (u r : option Z) : county_entry :=
  {| county := county e;
     total_voters := total_voters e;
     votes_cast := votes_cast e;
     attendance_percentage := attendance_percentage e;
     male_voters := male_voters e;
     female_voters := female_voters e;
     age_18_24 := age_18_24 e; age_25_34 := age_25_34 e; age_35_44 := age_35_44 e;
     age_45_64 := age_45_64 e; age_65_plus := age_65_plus e;
     urban_stations := u;
     rural_stations := r;
     timestamp := timestamp e |}.

(** One turn of the loop for a group that is not skipped. *)
Definition aggregate_group (nunique : list (option Z) -> result Z)
    (cols : list string) (current_time : string)
    (county_full_name : string) (county_df : list row)
    : result (county_entry * list event) :=
  e ← aggregate_sums cols current_time county_full_name county_df;
  let '(u, r, log) := station_counts nunique cols county_full_name county_df in
  Ok (with_stations e u r, log).

Definition skipped_name (county_full_name : string) : bool :=
  String.eqb county_full_name "" || String.eqb county_full_name "Unknown".

(** The loop over the groups.  What was printed before an exception stays
    printed, so the log is returned in both cases. *)
Fixpoint process_groups (nunique : list (option Z) -> result Z)
    (cols : list string) (current_time : string)
    (grouped : list (string * list row)) : result (list county_entry) * list event :=
  match grouped with
  | [] => (Ok [], [])
  | (county_full_name, county_df) :: rest =>
      if skipped_name county_full_name then
        let '(r, log) := process_groups nunique cols current_time rest in
        (r, SkippedGroup (hd None (map Judet county_df)) :: log)
      else
        match aggregate_group nunique cols current_time county_full_name county_df with
        | Raise e => (Raise e, [])
        | Ok (entry, log1) =>
            let '(r, log) := process_groups nunique cols current_time rest in
            (county_data ← r; Ok (entry :: county_data), log1 ++ log)
        end
  end.

Inductive source :=
| NoFile
| EmptyFile
| Frame (df : DataFrame).

(** What [process_presence_data] returns: the aggregated table, the empty
    frame, or the table of [generate_attendance_data]. *)
Inductive outcome :=
| Aggregated (county_data : list county_entry)
| EmptyFrame
| RandomData.

Definition Judet_Full (r : row) : option string := Some (get_full_county_name (Judet r)).

Definition process_presence_data (nunique : list (option Z) -> result Z)
    (current_time : string) (source_file : source) : outcome * list event :=
  match source_file with
  | NoFile => (RandomData, [SourceNotFound])
  | EmptyFile => (RandomData, [FallingBack EmptyDataError])
  | Frame df =>
      let missing_cols :=
        List.filter (fun c => negb (has_col (columns df) c)) required_cols_for_processing in
      match missing_cols with
      | _ :: _ => (RandomData, [MissingColumns missing_cols])
      | [] =>
          let grouped := groupby String.leb String.eqb Judet_Full (rows df) in
          match process_groups nunique (columns df) current_time grouped with
          | (Raise e, log) => (RandomData, log ++ [FallingBack e])
          | (Ok [], log) => (EmptyFrame, log ++ [NoValidCounty])
          | (Ok county_data, log) => (Aggregated county_data, log ++ [SavedAttendance])
          end
      end
  end.

(** ** update_data.py: the update of the stored tables *)

(** A row of [attendance.csv], as far as the update reads and writes it. *)
Record attendance_row := mk_att {
  att_total_voters : flt;
  att_votes_cast : flt;
  att_attendance_percentage : flt
}.

(** The body of the attendance loop; [change_factor] is the draw of
    [random.uniform(0.005, 0.02)]. *)
Definition update_attendance_row (change_factor : Q) (r : attendance_row)
    : result attendance_row :=
  let total_voters := if notna (att_total_voters r) then att_total_voters r else Fin 0 in
  let votes_cast := if notna (att_votes_cast r) then att_votes_cast r else Fin 0 in
  k ← py_int (fmul total_voters (Fin change_factor));
  let new_votes := py_min total_voters (fadd votes_cast (Fin (inject_Z k))) in
  Ok {| att_total_voters := att_total_voters r;
        att_votes_cast := new_votes;
        att_attendance_percentage :=
          fround_nd 2 (if fgt0 total_voters
                       then fmul (fdiv new_votes total_voters) (Fin 100)
                       else Fin 0) |}.

(** The attendance loop; the draw of row [i] is [change_factor i]. *)
Fixpoint update_attendance_rows (change_factor : nat -> Q) (i : nat)
    (df_attendance : list attendance_row) : result (list attendance_row) :=
  match df_attendance with
  | [] => Ok []
  | r :: rest =>
      r' ← update_attendance_row (change_factor i) r;
      rest' ← update_attendance_rows change_factor (S i) rest;
      Ok (r' :: rest')
  end.

(** The body of the results loop on the five candidate shares of a row;
    [adjustments] are the five draws of [random.uniform(-0.5, 0.5)]. *)
Definition update_results_row (adjustments : list Q) (row_pcts : list flt) : list flt :=
  let current_pcts := map (fun x => if notna x then x else Fin 0) row_pcts in
  let new_pcts := map fmax0 (zip_with fadd current_pcts (map Fin adjustments)) in
  let total_pct := fold_left fadd new_pcts (Fin 0) in
  let new_pcts :=
    if fgt0 total_pct
    then map (fun x => fmul (fdiv x total_pct) (Fin 100)) new_pcts
    else repeat (Fin 20) 5 in
  map (fround_nd 2) new_pcts.

(** The results loop; the draws of row [i] are [draw i 0 .. draw i 4]. *)
Definition update_results_rows (draw : nat -> nat -> Q) (df_results : list (list flt))
    : list (list flt) :=
  imap (fun i row_pcts => update_results_row (map (draw i) (seq 0 5)) row_pcts) df_results.

(** A stored table after [update_existing_data]: perturbed in place, or
    replaced by freshly generated random data when the file is missing or
    the update raised. *)
Inductive updated (A : Type) :=
| Perturbed (table : list A)
| Regenerated.
Arguments Perturbed {A} table.
Arguments Regenerated {A}.

Definition update_existing_attendance (change_factor : nat -> Q)
    (attendance_csv : option (list attendance_row)) : updated attendance_row :=
  match attendance_csv with
  | None => Regenerated
  | Some df_attendance =>
      match update_attendance_rows change_factor 0 df_attendance with
      | Ok t => Perturbed t
      | Raise _ => Regenerated
      end
  end.

Definition update_existing_results (draw : nat -> nat -> Q)
    (results_csv : option (list (list flt))) : updated (list flt) :=
  match results_csv with
  | None => Regenerated
  | Some df_results => Perturbed (update_results_rows draw df_results)
  end.

Definition update_existing_data (change_factor : nat -> Q) (draw : nat -> nat -> Q)
    (attendance_csv : option (list attendance_row))
    (results_csv : option (list (list flt)))
    : updated attendance_row * updated (list flt) :=
  (update_existing_attendance change_factor attendance_csv,
   update_existing_results draw results_csv).

(** ** app.py: responses *)

Inductive response (A : Type) :=
| Json200 (body : A)
| Error400 (msg : string)
| Error404 (msg : string)
| Error500 (e : exn).
Arguments Json200 {A} body.
Arguments Error400 {A} msg.
Arguments Error404 {A} msg.
Arguments Error500 {A} e.

(** A value of a JSON object built by the endpoints. *)
Inductive jval :=
| JInt (z : Z)
| JFloat (q : Q)
| JStr (s : string).

(** ** app.py: the demographic estimator and the percentage calculator *)

(** [attendance.csv] as [get_demographic] reads it: the county name and
    the numeric columns of each row under their names. *)
Record county_row := mk_county_row {
  row_county : string;
  row_values : gmap string flt
}.

Record attendance_frame := mk_attendance {
  att_columns : list string;
  att_rows : list county_row
}.

Definition basic_demographic_columns : list string :=
  ["male_voters"; "female_voters"; "age_18_24"; "age_25_34";
   "age_35_44"; "age_45_64"; "age_65_plus"; "urban_stations"; "rural_stations"]%string.

Definition age_groups : list string :=
  ["age_18_24"; "age_25_34"; "age_35_44"; "age_45_64"; "age_65_plus"]%string.

Definition urban_rural_columns : list string :=
  ["urban_votes"; "rural_votes";
   "urban_male_voters"; "urban_female_voters";
   "rural_male_voters"; "rural_female_voters";
   "urban_age_18_24"; "urban_age_25_34"; "urban_age_35_44";
   "urban_age_45_64"; "urban_age_65_plus";
   "rural_age_18_24"; "rural_age_25_34"; "rural_age_35_44";
   "rural_age_45_64"; "rural_age_65_plus"]%string.

(** [row[col]] on a numeric column. *)
Definition value_of (r : gmap string flt) (col : string) : flt :=
  default NaN (r !! col).

(** [(a * b / c).round().fillna(0).astype(int)] on one row. *)
Definition estimated_share (a b c : flt) : result Z :=
  astype_int (fillna 0 (fround (fdiv (fmul a b) c))).

Definition set_int (col : string) (z : Z) (r : gmap string flt) : gmap string flt :=
  <[col := Fin (inject_Z z)]> r.

(** The two columns of an age group in the estimation loop. *)
Definition estimate_age_group (r : gmap string flt) (age_group : string)
    : result (gmap string flt) :=
  u ← estimated_share (value_of r age_group) (value_of r "urban_votes") (value_of r "votes_cast");
  let r := set_int ("urban_" +:+ age_group) u r in
  v ← estimated_share (value_of r age_group) (value_of r "rural_votes") (value_of r "votes_cast");
  Ok (set_int ("rural_" +:+ age_group) v r).

Fixpoint estimate_age_groups (r : gmap string flt) (groups : list string)
    : result (gmap string flt) :=
  match groups with
  | [] => Ok r
  | g :: rest => r' ← estimate_age_group r g; estimate_age_groups r' rest
  end.

(** The estimation of the urban/rural columns from the station counts, on
    one row (the column operations of the source work row by row). *)
Definition estimate_row (r : gmap string flt) : result (gmap string flt) :=
  let total_stations := fadd (value_of r "urban_stations") (value_of r "rural_stations") in
  uv ← estimated_share (value_of r "votes_cast") (value_of r "urban_stations") total_stations;
  let r := set_int "urban_votes" uv r in
  rv ← estimated_share (value_of r "votes_cast") (value_of r "rural_stations") total_stations;
  let r := set_int "rural_votes" rv r in
  um ← estimated_share (value_of r "male_voters") (value_of r "urban_votes") (value_of r "votes_cast");
  let r := set_int "urban_male_voters" um r in
  uf ← estimated_share (value_of r "female_voters") (value_of r "urban_votes") (value_of r "votes_cast");
  let r := set_int "urban_female_voters" uf r in
  rm ← estimated_share (value_of r "male_voters") (value_of r "rural_votes") (value_of r "votes_cast");
  let r := set_int "rural_male_voters" rm r in
  rf ← estimated_share (value_of r "female_voters") (value_of r "rural_votes") (value_of r "votes_cast");
  let r := set_int "rural_female_voters" rf r in
  estimate_age_groups r age_groups.

Definition estimate_county_row (r : county_row) : result county_row :=
  v ← estimate_row (row_values r);
  Ok {| row_county := row_county r; row_values := v |}.

(** [d[key]] where the code has stored an integer (all such keys are set
    before they are read). *)
Definition get_int (d : gmap string jval) (key : string) : Z :=
  match d !! key with
  | Some (JInt z) => z
  | _ => 0
  end.

(** [d[key] = round(d[num] / den * 100, 1)]. *)
Definition set_percentage (key num : string) (den : Z) (d : gmap string jval)
    : gmap string jval :=
  <[key := JFloat (Qround_nd 1 (inject_Z (get_int d num) / inject_Z den * 100))]> d.

(** The percentage block, written twice in the source with the same text:
    once on [national_totals] with [total_votes], once on each
    [county_data] with [county_votes].  Its parts follow, under the
    comments that head them in the source. *)

(** "Basic demographic percentages" *)
Definition basic_percentages (total_votes : Z) (d : gmap string jval) : gmap string jval :=
  let d := set_percentage "male_percentage" "male_voters" total_votes d in
  let d := set_percentage "female_percentage" "female_voters" total_votes d in
  let d := set_percentage "age_18_24_percentage" "age_18_24" total_votes d in
  let d := set_percentage "age_25_34_percentage" "age_25_34" total_votes d in
  let d := set_percentage "age_35_44_percentage" "age_35_44" total_votes d in
  let d := set_percentage "age_45_64_percentage" "age_45_64" total_votes d in
  set_percentage "age_65_plus_percentage" "age_65_plus" total_votes d.

(** "Overall urban/rural split" *)
Definition split_percentages (total_votes : Z) (d : gmap string jval) : gmap string jval :=
  let d := set_percentage "urban_percentage" "urban_votes" total_votes d in
  set_percentage "rural_percentage" "rural_votes" total_votes d.

(** "Gender percentages within urban" *)
Definition urban_gender_percentages (d : gmap string jval) : gmap string jval :=
  if 0 <? get_int d "urban_votes" then
    let d := set_percentage "urban_male_percentage" "urban_male_voters" (get_int d "urban_votes") d in
    set_percentage "urban_female_percentage" "urban_female_voters" (get_int d "urban_votes") d
  else d.

(** "Gender percentages within rural" *)
Definition rural_gender_percentages (d : gmap string jval) : gmap string jval :=
  if 0 <? get_int d "rural_votes" then
    let d := set_percentage "rural_male_percentage" "rural_male_voters" (get_int d "rural_votes") d in
    set_percentage "rural_female_percentage" "rural_female_voters" (get_int d "rural_votes") d
  else d.

(** "Age percentages within urban" *)
Definition urban_age_percentages (d : gmap string jval) : gmap string jval :=
  if 0 <? get_int d "urban_votes" then
    let d := set_percentage "urban_age_18_24_percentage" "urban_age_18_24" (get_int d "urban_votes") d in
    let d := set_percentage "urban_age_25_34_percentage" "urban_age_25_34" (get_int d "urban_votes") d in
    let d := set_percentage "urban_age_35_44_percentage" "urban_age_35_44" (get_int d "urban_votes") d in
    let d := set_percentage "urban_age_45_64_percentage" "urban_age_45_64" (get_int d "urban_votes") d in
    set_percentage "urban_age_65_plus_percentage" "urban_age_65_plus" (get_int d "urban_votes") d
  else d.

(** "Age percentages within rural" *)
Definition rural_age_percentages (d : gmap string jval) : gmap string jval :=
  if 0 <? get_int d "rural_votes" then
    let d := set_percentage "rural_age_18_24_percentage" "rural_age_18_24" (get_int d "rural_votes") d in
    let d := set_percentage "rural_age_25_34_percentage" "rural_age_25_34" (get_int d "rural_votes") d in
    let d := set_percentage "rural_age_35_44_percentage" "rural_age_35_44" (get_int d "rural_votes") d in
    let d := set_percentage "rural_age_45_64_percentage" "rural_age_45_64" (get_int d "rural_votes") d in
    set_percentage "rural_age_65_plus_percentage" "rural_age_65_plus" (get_int d "rural_votes") d
  else d.

Definition add_percentages (has_urban_rural_data : bool) (total_votes : Z)
    (d : gmap string jval) : gmap string jval :=
  if 0 <? total_votes then
    let d := basic_percentages total_votes d in
    if has_urban_rural_data then
      let d := split_percentages total_votes d in
      let d := urban_gender_percentages d in
      let d := rural_gender_percentages d in
      let d := urban_age_percentages d in
      rural_age_percentages d
    else d
  else d.

(** [{col: int(f(col)) for col in cols}] stored into [d]. *)
Fixpoint set_ints (f : string -> result Z) (cols : list string) (d : gmap string jval)
    : result (gmap string jval) :=
  match cols with
  | [] => Ok d
  | col :: rest => z ← f col; set_ints f rest (<[col := JInt z]> d)
  end.

(** [int(df[col].sum())]. *)
Definition column_total (df : list county_row) (col : string) : result Z :=
  py_int (series_sum (map (fun r => value_of (row_values r) col) df)).

(** The body of the county loop. *)
Definition county_data_of (cols : list string) (has_urban_rural_data : bool)
    (r : county_row) : result (gmap string jval) :=
  let cell col := py_int (value_of (row_values r) col) in
  county_votes ← cell "votes_cast"%string;
  (if has_col cols "county" then Ok tt else Raise KeyError);;
  d ← set_ints cell basic_demographic_columns
        (<["total_votes" := JInt county_votes]> (<["county" := JStr (row_county r)]> ∅));
  d ← (if has_urban_rural_data then set_ints cell urban_rural_columns d else Ok d);
  Ok (add_percentages has_urban_rural_data county_votes d).

Record demographic_body := mk_demographic {
  national : gmap string jval;
  counties : list (gmap string jval);
  demographic_has_urban_rural_data : bool
}.

(** The [try] block of [get_demographic] after the column check. *)
Definition demographic_result (df : attendance_frame) : result demographic_body :=
  (if has_col (att_columns df) "votes_cast" then Ok tt else Raise KeyError);;
  total_votes ← column_total (att_rows df) "votes_cast";
  national_totals ← set_ints (column_total (att_rows df)) basic_demographic_columns
                      (<["total_votes" := JInt total_votes]> ∅);
  let has_urban_rural_data := forallb (has_col (att_columns df)) urban_rural_columns in
  '(rows, has_urban_rural_data) ←
     (if negb has_urban_rural_data
      then rows ← mapM_result estimate_county_row (att_rows df); Ok (rows, true)
      else Ok (att_rows df, has_urban_rural_data));
  national_totals ← set_ints (column_total rows) urban_rural_columns national_totals;
  let national_totals :=
    add_percentages has_urban_rural_data (get_int national_totals "total_votes")
                    national_totals in
  county_demographics ←
    mapM_result (county_data_of (att_columns df) has_urban_rural_data) rows;
  (if has_col (att_columns df) "timestamp" then Ok tt else Raise KeyError);;
  Ok {| national := national_totals;
        counties := county_demographics;
        demographic_has_urban_rural_data := has_urban_rural_data |}.

Definition get_demographic (attendance_csv : option attendance_frame)
    : response demographic_body :=
  match attendance_csv with
  | None => Error404 "Demographic data not available"
  | Some df =>
      if negb (forallb (has_col (att_columns df)) basic_demographic_columns)
      then Error404 "Basic demographic data columns missing in attendance data"
      else
        match demographic_result df with
        | Ok body => Json200 body
        | Raise e => Error500 e
        end
  end.

(** ** app.py: the clustering engine *)

Definition demographic_columns : list string :=
  ["Barbati 18-24"; "Barbati 25-34"; "Barbati 35-44"; "Barbati 45-64"; "Barbati 65+";
   "Femei 18-24"; "Femei 25-34"; "Femei 35-44"; "Femei 45-64"; "Femei 65+"]%string.

(** The keys under which the ten features are reported. *)
Definition demographic_names : list string :=
  ["male_18_24"; "male_25_34"; "male_35_44"; "male_45_64"; "male_65_plus";
   "female_18_24"; "female_25_34"; "female_35_44"; "female_45_64"; "female_65_plus"]%string.

Definition lower_ascii (c : ascii) : ascii :=
  let n := nat_of_ascii c in
  if ((65 <=? n) && (n <=? 90))%nat then ascii_of_nat (n + 32) else c.

(** [str.lower()], on the ASCII letters. *)
Fixpoint lower (s : string) : string :=
  match s with
  | EmptyString => EmptyString
  | String c t => String (lower_ascii c) (lower t)
  end.

Definition group_by_columns_of (cluster_level : string) : option (list string) :=
  if String.eqb cluster_level "county" then Some ["Judet"]%string
  else if String.eqb cluster_level "town" then Some ["Judet"; "Localitate"]%string
  else if String.eqb cluster_level "polling"
       then Some ["Judet"; "Localitate"; "Nume sectie de votare"]%string
  else None.

Definition name_column (col : string) (r : row) : option string :=
  if String.eqb col "Judet" then Judet r
  else if String.eqb col "Localitate" then Localitate r
  else Nume_sectie r.

(** The key tuple of a row; [None] when one of its parts is missing, and
    [groupby] then leaves the row out. *)
Definition group_key (group_by_columns : list string) (r : row) : option (list string) :=
  mapM (fun col => name_column col r) group_by_columns.

Fixpoint key_leb (a b : list string) : bool :=
  match a, b with
  | [], _ => true
  | _ :: _, [] => false
  | x :: a', y :: b' => if String.eqb x y then key_leb a' b' else String.leb x y
  end.

Fixpoint key_eqb (a b : list string) : bool :=
  match a, b with
  | [], [] => true
  | x :: a', y :: b' => String.eqb x y && key_eqb a' b'
  | _, _ => false
  end.

(** A row of [grouped_df]: the key and the sums of the group. *)
Record grouped_row := mk_grouped {
  key : list string;
  sum_registered : flt;
  sum_LP : flt;
  sum_counts : list flt
}.

Definition is_text (c : cell) : bool :=
  match c with CText _ => true | CNum _ => false end.

Definition demographic_cell (col : string) (r : row) : cell :=
  default (CNum NaN) (age_cells r !! col).

(** [groupby(...).agg(sum).reset_index()].  A text in a summed column
    makes the column non-numeric, and the arithmetic on its sums raises
    [TypeError]. *)
Definition group_and_sum (group_by_columns : list string) (df : list row)
    : result (list grouped_row) :=
  if existsb (fun col => existsb (fun r => is_text (demographic_cell col r)) df)
             demographic_columns
  then Raise TypeError
  else
    Ok (map (fun '(k, g) =>
               {| key := k;
                  sum_registered := series_sum (map registered g);
                  sum_LP := series_sum (map LP g);
                  sum_counts :=
                    map (fun col => series_sum (map (fun r => to_numeric (demographic_cell col r)) g))
                        demographic_columns |})
            (groupby key_leb key_eqb (group_key group_by_columns) df)).

(** The ten [_pct] columns of a row of [grouped_df]. *)
Definition pct_columns (g : grouped_row) : list flt :=
  map (fun c => fclip 0 100 (fmul (fdiv c (sum_LP g)) (Fin 100))) (sum_counts g).

(** The row of the matrix [X] for a row of [grouped_df]. *)
Definition feature_row (g : grouped_row) : list flt :=
  map (fun x => fclip 0 100 (fillna 0 (replace_inf x))) (pct_columns g).

(** What the scikit-learn calls return: the label of each row, the
    cluster centres back in percentage units, the two principal
    components of each row and the explained-variance ratios. *)
Record sk_fit := mk_sk_fit {
  labels : list Z;
  cluster_centers : list (list flt);
  principal_components : list (flt * flt);
  explained_variance_ratio : list flt
}.

(** The scikit-learn calls ([StandardScaler], [KMeans] with the given
    number of clusters, [PCA]) on the matrix [X]; they may raise. *)
Definition sklearn := Z -> list (list flt) -> result sk_fit.

Record clustered_unit := mk_unit {
  place : list (string * string);
  total_registered : Z;
  total_votes : Z;
  cluster : Z;
  pca_x : flt;
  pca_y : flt;
  demographics : list (string * Z);
  demographics_pct : list (string * flt)
}.

Record clustering_body := mk_clustering {
  body_cluster_level : string;
  body_n_clusters : Z;
  body_explained_variance_ratio : list flt;
  body_cluster_centers : list (nat * list (string * flt));
  clustered_data : list clustered_unit
}.

(** The names of the key parts in the output, per level. *)
Definition place_names (cluster_level : string) : list string :=
  if String.eqb cluster_level "county" then ["county"]%string
  else if String.eqb cluster_level "town" then ["county"; "town"]%string
  else ["county"; "town"; "polling_station"]%string.

(** One element of [clustered_data]. *)
Definition clustered_unit_of (cluster_level : string) (g : grouped_row)
    (label : Z) (pc : flt * flt) : result clustered_unit :=
  registered ← py_int (sum_registered g);
  votes ← py_int (sum_LP g);
  counts ← mapM_result py_int (sum_counts g);
  Ok {| place := zip (place_names cluster_level) (key g);
        total_registered := registered;
        total_votes := votes;
        cluster := label;
        pca_x := fst pc;
        pca_y := snd pc;
        demographics := zip demographic_names counts;
        demographics_pct := zip demographic_names (pct_columns g) |}.

Fixpoint clustered_units (cluster_level : string) (gs : list grouped_row)
    (ls : list Z) (pcs : list (flt * flt)) : result (list clustered_unit) :=
  match gs, ls, pcs with
  | [], [], [] => Ok []
  | g :: gs', l :: ls', pc :: pcs' =>
      u ← clustered_unit_of cluster_level g l pc;
      us ← clustered_units cluster_level gs' ls' pcs';
      Ok (u :: us)
  | _, _, _ => Raise ValueError
  end.

(** The [try] block of [get_clustering] from the grouping on; the second
    component is what was logged as a warning. *)
Definition clustering_result (sk : sklearn) (cols : list string) (df : list row)
    (cluster_level : string) (group_by_columns : list string) (n_clusters : Z)
    : result clustering_body * list event :=
  if negb (forallb (has_col cols) (group_by_columns ++ [total_voters_col; "LP"]%string))
  then (Raise KeyError, [])
  else
    match group_and_sum group_by_columns df with
    | Raise e => (Raise e, [])
    | Ok grouped_df =>
        let grouped_df := List.filter (fun g => fgt0 (sum_LP g)) grouped_df in
        let '(n_clusters, log) :=
          if Z.of_nat (length grouped_df) <=? n_clusters
          then let n := Z.max 2 (Z.of_nat (length grouped_df) - 1) in
               (n, [ReducedClusters n])
          else (n_clusters, []) in
        let X := map feature_row grouped_df in
        (fit ← sk n_clusters X;
         units ← clustered_units cluster_level grouped_df (labels fit)
                   (principal_components fit);
         Ok {| body_cluster_level := cluster_level;
               body_n_clusters := n_clusters;
               body_explained_variance_ratio := explained_variance_ratio fit;
               body_cluster_centers :=
                 imap (fun i c => (i, zip (map (fun n => n +:+ "_pct") demographic_names) c))
                      (cluster_centers fit);
               clustered_data := units |},
         log)
    end.

(** The endpoint.  [cluster_dir] is [None] when the directory is missing
    and [Some None] when the presence file is; [level] and [n_clusters]
    are the query parameters, [None] when absent. *)
Definition get_clustering (sk : sklearn) (cluster_dir : option (option DataFrame))
    (level : option string) (n_clusters : option Z)
    : response clustering_body * list event :=
  match cluster_dir with
  | None => (Error404 "Cluster data directory not found", [])
  | Some None => (Error404 "presence_now.csv file not found in Cluster directory", [])
  | Some (Some df) =>
      if negb (forallb (has_col (columns df)) demographic_columns)
      then (Error400 "Required demographic columns missing in presence data", [])
      else
        let cluster_level := lower (default "county" level) in
        let n_clusters := default 5 n_clusters in
        match group_by_columns_of cluster_level with
        | None =>
            (Error400 ("Invalid clustering level: " +:+ cluster_level
                       +:+ ". Must be one of: county, town, polling"), [])
        | Some group_by_columns =>
            match clustering_result sk (columns df) (rows df) cluster_level
                                    group_by_columns n_clusters with
            | (Ok body, log) => (Json200 body, log)
            | (Raise e, log) => (Error500 e, log)
            end
        end
  end.

(** ** Vocabulary of the statements *)

Definition Qsum (l : list Q) : Q := fold_right Qplus 0%Q l.




(** The counts of an attendance row are numbers with
    [0 <= votes_cast <= total_voters]. *)
Definition counts_in_order (r : attendance_row) : Prop :=
  exists tv vc, att_total_voters r = Fin tv /\ att_votes_cast r = Fin vc
                /\ (0 <= vc)%Q /\ (vc <= tv)%Q.

(** [r'] is [r] after one update: same [total_voters], [votes_cast] not
    smaller than before and capped at [total_voters], attendance
    percentage in [[0,100]]. *)
Definition attendance_step (r r' : attendance_row) : Prop :=
  exists tv vc nv a,
    att_total_voters r = Fin tv /\ att_votes_cast r = Fin vc
    /\ att_total_voters r' = Fin tv /\ att_votes_cast r' = Fin nv
    /\ att_attendance_percentage r' = Fin a
    /\ (vc <= nv)%Q /\ (nv <= tv)%Q /\ (0 <= a)%Q /\ (a <= 100)%Q.
















(** The values stored under [keys] in the [i]-th county object of a
    response of [get_demographic]. *)
Definition county_fields (resp : response demographic_body) (i : nat) (keys : list string)
    : option (list (option jval)) :=
  match resp with
  | Json200 body =>
      match counties body !! i with
      | Some d => Some (map (fun k => d !! k) keys)
      | None => None
      end
  | _ => None
  end.

















(** What the properties read off a response of [get_clustering]. *)
Definition clustering_summary (resp : response clustering_body)
    : option (Z * list flt * list (list (string * flt))) :=
  match resp with
  | Json200 body =>
      Some (body_n_clusters body, body_explained_variance_ratio body,
            map demographics_pct (clustered_data body))
  | _ => None
  end.

(** ** Sample inputs *)

Definition presence_columns : list string :=
  required_cols_for_processing
    ++ [station_type_col; station_id_col; "Localitate"; "Nume sectie de votare"; "LP"]%string.

Definition age_row (male female : list cell) : gmap string cell :=
  list_to_map (zip male_age_cols_src male ++ zip female_age_cols_src female).

Definition station (judet : string) (nr : Z) (mediu : string) (reg votes : Q)
    (male female : list cell) : row :=
  {| Judet := Some judet;
     Localitate := Some "Centru"%string;
     Nume_sectie := Some "Scoala"%string;
     Nr_sectie := Some nr;
     Mediu := Some mediu;
     registered := Fin reg;
     LT := Fin votes;
     LP := Fin votes;
     age_cells := age_row male female |}.

Definition whole (z : Z) : cell := CNum (Fin (inject_Z z)).

(** Two counties, three stations. *)
Definition sample_presence : DataFrame :=
  {| columns := presence_columns;
     rows :=
       [ station "CLUJ" 1 "U" 100 40
           [whole 5; whole 6; whole 3; whole 4; whole 2]
           [whole 4; whole 6; whole 4; whole 4; whole 2];
         station "Bucuresti" 1 "U" 200 90
           [whole 10; whole 10; whole 10; whole 10; whole 5]
           [whole 10; whole 10; whole 10; whole 10; whole 5];
         station " cluj" 2 "R" 50 10
           [whole 1; CText "n/a"; whole 1; CNum NaN; whole 3]
           [whole 1; whole 1; whole 1; whole 1; whole 1] ] |}.




(** The entries that the aggregator makes of [sample_presence]. *)
Definition sample_entry_bucharest : county_entry :=
  {| county := "Bucharest"; total_voters := 200; votes_cast := 90;
     attendance_percentage := Fin (4500 # 100);
     male_voters := Some 45; female_voters := Some 45;
     age_18_24 := Some 20; age_25_34 := Some 20; age_35_44 := Some 20;
     age_45_64 := Some 20; age_65_plus := Some 10;
     urban_stations := Some 1; rural_stations := Some 0; timestamp := "t" |}.

Definition sample_entry_cluj : county_entry :=
  {| county := "Cluj"; total_voters := 150; votes_cast := 50;
     attendance_percentage := Fin (3333 # 100);
     male_voters := Some 25; female_voters := Some 25;
     age_18_24 := Some 11; age_25_34 := Some 13; age_35_44 := Some 9;
     age_45_64 := Some 9; age_65_plus := Some 8;
     urban_stations := Some 1; rural_stations := Some 1; timestamp := "t" |}.

Definition attendance_columns : list string :=
  ["county"; "total_voters"; "votes_cast"; "attendance_percentage"; "male_voters";
   "female_voters"; "age_18_24"; "age_25_34"; "age_35_44"; "age_45_64"; "age_65_plus";
   "urban_stations"; "rural_stations"; "timestamp"]%string.

(** A row of [attendance.csv] with a 50/50 gender split, five equal age
    bands and the given station counts. *)
Definition county_row_of (name : string) (votes urban rural : Z) : county_row :=
  {| row_county := name;
     row_values :=
       list_to_map
         [ ("total_voters"%string, Fin (inject_Z (2 * votes)));
           ("votes_cast"%string, Fin (inject_Z votes));
           ("attendance_percentage"%string, Fin 50);
           ("male_voters"%string, Fin (inject_Z (votes / 2)));
           ("female_voters"%string, Fin (inject_Z (votes / 2)));
           ("age_18_24"%string, Fin (inject_Z (votes / 5)));
           ("age_25_34"%string, Fin (inject_Z (votes / 5)));
           ("age_35_44"%string, Fin (inject_Z (votes / 5)));
           ("age_45_64"%string, Fin (inject_Z (votes / 5)));
           ("age_65_plus"%string, Fin (inject_Z (votes / 5)));
           ("urban_stations"%string, Fin (inject_Z urban));
           ("rural_stations"%string, Fin (inject_Z rural)) ] |}.

(** A county with 1000 votes and three stations, a county with 1000
    votes whose stations are of neither type, and a county without votes. *)
Definition sample_attendance : attendance_frame :=
  {| att_columns := attendance_columns;
     att_rows := [county_row_of "Alba" 1000 2 1; county_row_of "Arad" 1000 0 0;
                  county_row_of "Bihor" 0 1 1] |}.


(** Three counties with votes. *)
Definition three_county_presence : DataFrame :=
  {| columns := presence_columns;
     rows :=
       [ station "AB" 1 "U" 100 40
           [whole 5; whole 6; whole 3; whole 4; whole 2]
           [whole 4; whole 6; whole 4; whole 4; whole 2];
         station "AR" 1 "U" 200 80
           [whole 20; whole 12; whole 6; whole 8; whole 4]
           [whole 8; whole 2; whole 8; whole 8; whole 4];
         station "BH" 1 "R" 50 20
           [whole 1; whole 1; whole 1; whole 1; whole 1]
           [whole 3; whole 3; whole 3; whole 3; whole 3] ] |}.

(** A stand-in for the scikit-learn calls, to run the endpoint on the
    samples: every row in cluster 0, the centres at the first row, and a
    batch without variance as [PCA] reports it, the ratio of a zero
    variance to a zero total being NaN. *)
Definition flat_sklearn : sklearn :=
  fun n_clusters X =>
    Ok {| labels := map (fun _ => 0) X;
          cluster_centers := repeat (hd [] X) (Z.to_nat n_clusters);
          principal_components := map (fun _ => (Fin 0, Fin 0)) X;
          explained_variance_ratio := [NaN; NaN] |}.


(** * Properties *)


(** ** Rounding and truncation *)

Section Rounding.
Open Scope Q_scope.

Lemma round_half_even_bounds (q : Q) :
  q - (1 # 2) <= inject_Z (round_half_even q) <= q + (1 # 2).
Proof.
  unfold round_half_even.
  pose proof (Qfloor_le q) as Hlo.
  pose proof (Qlt_floor q) as Hhi.
  rewrite inject_Z_plus in Hhi. change (inject_Z 1) with 1 in Hhi.
  destruct (Qcompare_spec (q - inject_Z (Qfloor q)) (1 # 2)) as [He | Hl | Hg].
  - destruct (Z.even (Qfloor q));
      [ | rewrite inject_Z_plus; change (inject_Z 1) with 1 ]; lra.
  - lra.
  - rewrite inject_Z_plus. change (inject_Z 1) with 1. lra.
Qed.


Lemma inject_Z_pow10_pos (n : nat) : 0 < inject_Z (Zpos (pow10 n)).
Proof. unfold Qlt. simpl. lia. Qed.



Lemma Qround_nd_range (n : nat) (lo hi : Z) (q : Q) :
  inject_Z lo <= q <= inject_Z hi ->
  inject_Z lo <= Qround_nd n q <= inject_Z hi.
Proof.
  intros [Hlo Hhi].
  pose proof (inject_Z_pow10_pos n) as Hp.
  pose proof (round_half_even_bounds (q * inject_Z (Zpos (pow10 n)))) as [Rlo Rhi].
  set (s := Zpos (pow10 n)) in *.
  set (r := round_half_even (q * inject_Z s)) in *.
  assert (Hr1 : (lo * s <= r)%Z).
  { assert (inject_Z (lo * s + -1) < inject_Z r) as Hlt.
    { rewrite inject_Z_plus, inject_Z_mult. change (inject_Z (-1)) with (-1). nra. }
    rewrite <- Zlt_Qlt in Hlt. lia. }
  assert (Hr2 : (r <= hi * s)%Z).
  { assert (inject_Z r < inject_Z (hi * s + 1)) as Hlt.
    { rewrite inject_Z_plus, inject_Z_mult. change (inject_Z 1) with 1. nra. }
    rewrite <- Zlt_Qlt in Hlt. lia. }
  unfold Qround_nd. fold s. fold r.
  unfold Qle. simpl. fold s. split; lia.
Qed.

End Rounding.

(** ** The name normalizer *)








(** ** The update of the stored tables *)

Section Update.
Open Scope Q_scope.

Lemma Qtrunc_nonneg (q : Q) : 0 <= q -> (0 <= Qtrunc q)%Z.
Proof.
  intros H. unfold Qtrunc. apply Z.quot_pos; [| lia].
  unfold Qle in H. simpl in H. lia.
Qed.

Lemma fgt0_Fin (q : Q) : fgt0 (Fin q) = true <-> 0 < q.
Proof.
  unfold fgt0. destruct (Qcompare_spec q 0); split; intros; try discriminate; try lra; reflexivity.
Qed.

Lemma Qltb_lt (a b : Q) : Qltb a b = true <-> a < b.
Proof.
  unfold Qltb. destruct (Qcompare_spec a b); split; intros; try discriminate; try lra; reflexivity.
Qed.

Lemma percentage_range (n : nat) (v t : Q) :
  0 < t -> 0 <= v -> v <= t ->
  0 <= Qround_nd n (v / t * 100) /\ Qround_nd n (v / t * 100) <= 100.
Proof.
  intros Ht Hv Hvt.
  apply (Qround_nd_range n 0 100).
  assert (E : v / t * t == v) by (field; lra).
  change (inject_Z 0) with 0. change (inject_Z 100) with 100.
  set (x := v / t) in *. split; nra.
Qed.

Lemma update_attendance_row_step (change_factor : Q) (r : attendance_row) :
  5 # 1000 <= change_factor -> change_factor <= 2 # 100 ->
  counts_in_order r ->
  exists r', update_attendance_row change_factor r = Ok r'
             /\ attendance_step r r' /\ counts_in_order r'.
Proof.
  intros Hlo Hhi (tv & vc & Htv & Hvc & H0 & Hle).
  unfold update_attendance_row. rewrite Htv, Hvc.
  cbn [notna fmul py_int mbind result_bind fadd].
  set (k := Qtrunc (tv * change_factor)).
  assert (Hk : (0 <= k)%Z) by (apply Qtrunc_nonneg; nra).
  assert (Hk' : 0 <= inject_Z k).
  { change 0 with (inject_Z 0). rewrite <- Zle_Qle. exact Hk. }
  set (nv := py_min (Fin tv) (Fin (vc + inject_Z k))).
  assert (Hnv : exists n, nv = Fin n /\ vc <= n /\ n <= tv).
  { unfold nv, py_min. simpl.
    destruct (Qltb (vc + inject_Z k) tv) eqn:E.
    - apply Qltb_lt in E. eexists; split; [reflexivity | lra].
    - eexists; split; [reflexivity | lra]. }
  destruct Hnv as (n & -> & Hn1 & Hn2).
  assert (Ha : exists a,
             fround_nd 2 (if fgt0 (Fin tv) then fmul (fdiv (Fin n) (Fin tv)) (Fin 100) else Fin 0)
             = Fin a /\ 0 <= a /\ a <= 100).
  { destruct (fgt0 (Fin tv)) eqn:E.
    - apply fgt0_Fin in E. simpl.
      destruct (Qeq_bool tv 0) eqn:Ez; [apply Qeq_bool_eq in Ez; lra |].
      simpl. eexists; split; [reflexivity |].
      apply percentage_range; lra.
    - simpl. eexists; split; [reflexivity |]. vm_compute. split; discriminate. }
  destruct Ha as (a & -> & Ha1 & Ha2).
  eexists; split; [reflexivity |]. split.
  - exists tv, vc, n, a. simpl. repeat split; assumption || lra.
  - exists tv, n. simpl. repeat split; lra.
Qed.

Lemma update_attendance_rows_step (change_factor : nat -> Q) (df_attendance : list attendance_row) :
  (forall i, 5 # 1000 <= change_factor i /\ change_factor i <= 2 # 100) ->
  Forall counts_in_order df_attendance ->
  forall i, exists t,
    update_attendance_rows change_factor i df_attendance = Ok t
    /\ Forall2 attendance_step df_attendance t /\ Forall counts_in_order t.
Proof.
  intros Hcf Hall. induction Hall as [| r rest Hr Hrest IH]; intros i.
  - exists []. simpl. repeat split; constructor.
  - destruct (update_attendance_row_step (change_factor i) r) as (r' & E & Hs & Hc);
      [apply Hcf | apply Hcf | exact Hr |].
    destruct (IH (S i)) as (t & Et & Hst & Hct).
    exists (r' :: t). simpl. rewrite E. simpl. rewrite Et. simpl.
    repeat split; constructor; assumption.
Qed.

(** C10.  On an attendance table whose rows have numeric counts with
    [0 <= votes_cast <= total_voters], and for any draws of the change
    factor in [[0.005, 0.02]], the update perturbs the table (it does not
    fall back), and in every row [total_voters] is unchanged, the new
    [votes_cast] is not smaller than the old one and not larger than
    [total_voters], and the new attendance percentage lies in [[0,100]];
    so the rows again satisfy [0 <= votes_cast <= total_voters]. *)
Theorem update_attendance_preserves_order
    (change_factor : nat -> Q) (df_attendance : list attendance_row) :
  (forall i, 5 # 1000 <= change_factor i /\ change_factor i <= 2 # 100) ->
  Forall counts_in_order df_attendance ->
  exists t,
    update_existing_attendance change_factor (Some df_attendance) = Perturbed t
    /\ Forall2 attendance_step df_attendance t
    /\ Forall counts_in_order t.
Proof.
  intros Hcf Hall.
  destruct (update_attendance_rows_step change_factor df_attendance Hcf Hall 0%nat)
    as (t & E & Hs & Hc).
  exists t. unfold update_existing_attendance. rewrite E. auto.
Qed.

Lemma update_attendance_preserves_order_witness :
  exists t,
    update_existing_attendance (fun _ => 1 # 100)
      (Some [ {| att_total_voters := Fin 1000; att_votes_cast := Fin 400;
                 att_attendance_percentage := Fin 40 |};
              {| att_total_voters := Fin 250; att_votes_cast := Fin 249;
                 att_attendance_percentage := Fin (996 # 10) |} ]) = Perturbed t
    /\ Forall2 attendance_step
         [ {| att_total_voters := Fin 1000; att_votes_cast := Fin 400;
              att_attendance_percentage := Fin 40 |};
           {| att_total_voters := Fin 250; att_votes_cast := Fin 249;
              att_attendance_percentage := Fin (996 # 10) |} ] t
    /\ Forall counts_in_order t.
Proof.
  apply update_attendance_preserves_order.
  - intros i. split; unfold Qle; simpl; lia.
  - repeat constructor.
    + exists 1000, 400. repeat split; unfold Qle; simpl; lia.
    + exists 250, 249. repeat split; unfold Qle; simpl; lia.
Defined.

(** *** The results table *)







Lemma Qsum_nonneg_max (l : list Q) : 0 <= Qsum (map (Qmax 0) l).
Proof.
  induction l as [| x l IH]; unfold Qsum in *; simpl; [lra |].
  pose proof (Q.le_max_l 0 x). lra.
Qed.









End Update.

(** ** The aggregator *)

Example sample_aggregation :
  process_presence_data pandas_nunique "t" (Frame sample_presence)
  = (Aggregated [sample_entry_bucharest; sample_entry_cluj], [SavedAttendance]).
Proof. vm_compute. reflexivity. Qed.













Section Sums.
Open Scope Q_scope.














End Sums.

Section Aggregator.
Open Scope Q_scope.









End Aggregator.

(** *** Exceptions in the aggregation *)




(** ** The demographic estimator *)

Example sample_estimate :
  (r ← estimate_row (row_values (county_row_of "Alba" 1000 2 1));
   Ok (value_of r "urban_votes", value_of r "rural_votes", value_of r "urban_male_voters"))
  = Ok (Fin (inject_Z 667), Fin (inject_Z 333), Fin (inject_Z 334)).
Proof. vm_compute. reflexivity. Qed.

Section Estimator.
Open Scope Q_scope.














End Estimator.


(** ** The percentage calculator *)































(** The three cases on the sample: all percentages for a county with
    urban and rural votes, no urban or rural ones for the county whose
    estimated shares are 0, none at all for the county without votes. *)
Example sample_percentages :
  county_fields (get_demographic (Some sample_attendance)) 0
    ["total_votes"; "male_percentage"; "urban_percentage"; "urban_male_percentage";
     "rural_age_65_plus_percentage"]%string
  = Some [Some (JInt 1000); Some (JFloat (500 # 10)); Some (JFloat (667 # 10));
          Some (JFloat (501 # 10)); Some (JFloat (201 # 10))]
  /\ county_fields (get_demographic (Some sample_attendance)) 1
       ["total_votes"; "urban_votes"; "rural_votes"; "male_percentage"; "urban_percentage";
        "urban_male_percentage"; "rural_age_65_plus_percentage"]%string
     = Some [Some (JInt 1000); Some (JInt 0); Some (JInt 0); Some (JFloat (500 # 10));
             Some (JFloat (0 # 10)); None; None]
  /\ county_fields (get_demographic (Some sample_attendance)) 2
       ["total_votes"; "male_percentage"; "urban_percentage"; "urban_male_percentage";
        "rural_age_65_plus_percentage"]%string
     = Some [Some (JInt 0); None; None; None; None].
Proof. repeat split; vm_compute; reflexivity. Qed.

(** ** The clustering engine *)

Example sample_clustering :
  (let '(resp, log) :=
     get_clustering flat_sklearn (Some (Some three_county_presence))
                    (Some "County"%string) (Some 5) in
   (option_map (fun s => fst (fst s)) (clustering_summary resp), log))
  = (Some 2, [ReducedClusters 2])
  /\ (let '(resp, log) :=
        get_clustering flat_sklearn (Some (Some three_county_presence))
                       (Some "town"%string) (Some 2) in
      (option_map (fun s => fst (fst s)) (clustering_summary resp), log))
     = (Some 2, []).
Proof. split; vm_compute; reflexivity. Qed.

Section Clustering.
Open Scope Q_scope.

















End Clustering.

(** ** Edges of the model that the statements above leave out *)

(** The null branch of [safe_sum_multiple] needs a total that is NaN, which
    only opposite infinities produce. *)
Example safe_sum_multiple_null :
  safe_sum_multiple presence_columns
    [ {| Judet := Some "Cluj"%string; Localitate := None; Nume_sectie := None;
         Nr_sectie := None; Mediu := None; registered := Fin 1; LT := Fin 1; LP := Fin 1;
         age_cells := age_row [CNum PInf; CNum NInf] [] |} ]
    male_age_cols_src
  = Ok None.
Proof. vm_compute. reflexivity. Qed.

(** With the [nunique] of pandas the station counts never raise: both are
    set and nothing is logged. *)
Lemma station_counts_pandas (cols : list string) (name : string) (g : list row) :
  has_col cols station_type_col = true ->
  has_col cols station_id_col = true ->
  exists u r, station_counts pandas_nunique cols name g = (Some u, Some r, []).
Proof.
  intros H1 H2. unfold station_counts, pandas_nunique. rewrite H1, H2. simpl. eauto.
Qed.

(** An infinite share is outside [numeric_shares]: the update turns it
    into NaN and the other shares into 0. *)
Example update_results_row_infinite :
  update_results_row [0; 0; 0; 0; 0]%Q [PInf; Fin 10; Fin 20; Fin 30; Fin 40]
  = [NaN; Fin (0 # 100); Fin (0 # 100); Fin (0 # 100); Fin (0 # 100)].
Proof. vm_compute. reflexivity. Qed.
